(** * Deep-research workflow: a shallow embedding of [main.py]

    The program answers a query with a LangGraph workflow of four nodes
    ([start], [research], [synthesis], [answer]) over one mutable state
    dictionary.  This file embeds the state, the four node functions, the
    router, the graph built at module level and the entry point
    [run_deep_research], and proves the properties of the workflow.  It also
    embeds the HTTP handler of [flask_api.py] that calls the entry point.

    - Python dictionaries with a fixed key set are records; the search
      records returned by the search tool are finite maps from key to value.
    - The state dictionary is one object mutated in place: it lives in a
      store, next to the record of the calls made to the outside world.
    - The search tool and the three prompt|model|parser chains are the
      program's collaborators; they are parameters of the development and
      may either return a value or raise. *)

From stdpp Require Import base strings gmap list.

Open Scope string_scope.
Open Scope list_scope.

(** ** Data model *)

(** [class AgentState(Enum)] *)
Inductive AgentState : Set :=
| RESEARCH
| SYNTHESIS
| ANSWER
| COMPLETE.

#[global] Instance AgentState_eq_dec : EqDecision AgentState.
Proof. solve_decision. Defined.

(** One record of the search tool: a dictionary whose keys may be missing. *)
Abbreviation SearchResult := (gmap string string).

(** One entry of [state["sources"]]: the dictionary literal built in
    [run_research], always with these three keys. *)
Record Source : Set := mkSource {
  title : string;
  url : string;
  published_date : string
}.

(** One entry of [state["messages"]]: [{"role": ..., "content": ...}]. *)
Record Message : Set := mkMessage {
  role : string;
  content : string
}.

(** [class GraphState(Dict)]: the keys written by [__init__]. *)
Record GraphState : Type := mkGraphState {
  query : string;
  search_results : option (list SearchResult);
  research_notes : option string;
  sources : list Source;
  synthesized_research : option string;
  final_answer : option string;
  messages : list Message;
  current_state : AgentState
}.

(** [GraphState.__init__(self, query)] *)
Definition GraphState_init (query : string) : GraphState :=
  {| query := query;
     search_results := None;
     research_notes := None;
     sources := [];
     synthesized_research := None;
     final_answer := None;
     messages := [];
     current_state := RESEARCH |}.

(** Item assignment [state[key] = v], one function per key that the program
    assigns. *)
Definition set_search_results (v : option (list SearchResult)) (st : GraphState) : GraphState :=
  {| query := query st; search_results := v; research_notes := research_notes st;
     sources := sources st; synthesized_research := synthesized_research st;
     final_answer := final_answer st; messages := messages st;
     current_state := current_state st |}.

Definition set_research_notes (v : option string) (st : GraphState) : GraphState :=
  {| query := query st; search_results := search_results st; research_notes := v;
     sources := sources st; synthesized_research := synthesized_research st;
     final_answer := final_answer st; messages := messages st;
     current_state := current_state st |}.

Definition set_sources (v : list Source) (st : GraphState) : GraphState :=
  {| query := query st; search_results := search_results st;
     research_notes := research_notes st;
     sources := v; synthesized_research := synthesized_research st;
     final_answer := final_answer st; messages := messages st;
     current_state := current_state st |}.

Definition set_synthesized_research (v : option string) (st : GraphState) : GraphState :=
  {| query := query st; search_results := search_results st;
     research_notes := research_notes st;
     sources := sources st; synthesized_research := v;
     final_answer := final_answer st; messages := messages st;
     current_state := current_state st |}.

Definition set_final_answer (v : option string) (st : GraphState) : GraphState :=
  {| query := query st; search_results := search_results st;
     research_notes := research_notes st;
     sources := sources st; synthesized_research := synthesized_research st;
     final_answer := v; messages := messages st;
     current_state := current_state st |}.

Definition set_current_state (v : AgentState) (st : GraphState) : GraphState :=
  {| query := query st; search_results := search_results st;
     research_notes := research_notes st;
     sources := sources st; synthesized_research := synthesized_research st;
     final_answer := final_answer st; messages := messages st;
     current_state := v |}.

(** [state["messages"].append(msg)]: the list object is extended at its end. *)
Definition messages_append (msg : Message) (st : GraphState) : GraphState :=
  {| query := query st; search_results := search_results st;
     research_notes := research_notes st;
     sources := sources st; synthesized_research := synthesized_research st;
     final_answer := final_answer st; messages := messages st ++ [msg];
     current_state := current_state st |}.

(** Python truth value of [state["search_results"]]: [None] and the empty
    list are false, a list with an element is true. *)
Definition truthy (v : option (list SearchResult)) : bool :=
  match v with
  | None => false
  | Some [] => false
  | Some (_ :: _) => true
  end.

(** The dictionary appended to [sources] for one search record:
    [result.get(key, placeholder)] for each of the three keys. *)
Definition source_of (result : SearchResult) : Source :=
  {| title := default "Unknown Title" (result !! "title");
     url := default "Unknown URL" (result !! "url");
     published_date := default "Unknown Date" (result !! "published_date") |}.

(** The dictionary returned by [run_deep_research]. *)
Record Summary : Set := mkSummary {
  r_query : string;
  r_final_answer : option string;
  r_sources : list Source;
  r_workflow_path : list string
}.

(** ** The outside world *)

(** What a run does to the outside world, in order: the calls to the search
    tool and to the three chains, each with the arguments of the call, and
    (as instrumentation of the engine) the nodes entered, each with the value
    of [state["current_state"]] seen on entry. *)
Inductive Event : Type :=
| SearchCall (query : string)
| ResearcherCall (query : string) (search_results : option (list SearchResult))
                 (messages : list Message)
| SynthesizerCall (query : string) (research_notes : option string)
                  (sources : list Source) (messages : list Message)
| DrafterCall (query : string) (synthesized_research : option string)
              (sources : list Source) (messages : list Message)
| NodeEntered (name : string) (seen : AgentState).

(** Exceptions: those of the collaborators are opaque to the program and
    carry their text; the others come from the interpreter and the engine. *)
Inductive Exn : Set :=
| ExternalError (text : string)
| TypeError (text : string)
| ValueError (text : string)
| GraphRecursionError.

Inductive Result (A : Type) : Type :=
| Ok (a : A)
| Raise (e : Exn).
Arguments Ok {A} a.
Arguments Raise {A} e.

(** The collaborators: each is a function of the arguments of the call.  The
    search tool either raises or answers with a list of records, the type
    that [GraphState] declares for [search_results]; an answer of another
    type is outside this model. *)
Record Collaborators : Type := mkCollaborators {
  (** [search_tool.invoke({"query": query})] *)
  search_tool_invoke : forall (query : string), Result (list SearchResult);
  (** [(researcher_prompt | researcher_llm | StrOutputParser()).invoke(...)] *)
  researcher_chain_invoke :
    forall (query : string) (search_results : option (list SearchResult))
           (messages : list Message), Result string;
  (** [(synthesizer_prompt | synthesizer_llm | StrOutputParser()).invoke(...)] *)
  synthesizer_chain_invoke :
    forall (query : string) (research_notes : option string)
           (sources : list Source) (messages : list Message), Result string;
  (** [(drafter_prompt | drafter_llm | StrOutputParser()).invoke(...)] *)
  drafter_chain_invoke :
    forall (query : string) (synthesized_research : option string)
           (sources : list Source) (messages : list Message), Result string
}.

(** ** The store and the monad of node functions *)

(** The state dictionary of the run and the events so far. *)
Record Store : Type := mkStore {
  obj : GraphState;
  log : list Event
}.

(** A computation reads and writes the store and returns or raises; what it
    wrote before raising stays written. *)
Definition M (A : Type) : Type := Store -> Result A * Store.

Definition ret {A : Type} (a : A) : M A := fun s => (Ok a, s).

Definition bind {A B : Type} (m : M A) (k : A -> M B) : M B :=
  fun s =>
    match m s with
    | (Ok a, s') => k a s'
    | (Raise e, s') => (Raise e, s')
    end.

Definition raise {A : Type} (e : Exn) : M A := fun s => (Raise e, s).

#[global] Instance M_ret : MRet M := @ret.
#[global] Instance M_bind : MBind M := fun A B k m => bind m k.

(** Reading the state dictionary. *)
Definition get_state : M GraphState := fun s => (Ok (obj s), s).

(** Writing the state dictionary in place. *)
Definition update (f : GraphState -> GraphState) : M unit :=
  fun s => (Ok tt, {| obj := f (obj s); log := log s |}).

(** Recording an event. *)
Definition emit (ev : Event) : M unit :=
  fun s => (Ok tt, {| obj := obj s; log := log s ++ [ev] |}).

(** Calling a collaborator: the call is recorded and its answer is returned
    or raised. *)
Definition call {A : Type} (ev : Event) (answer : Result A) : M A :=
  fun s => (answer, {| obj := obj s; log := log s ++ [ev] |}).

(** ** The node functions *)

Section Workflow.

Context (world : Collaborators).

(** [def run_research(state)] *)
Definition run_research : M unit :=
  state ← get_state;
  let query := query state in
  (if negb (truthy (search_results state)) then
     search_results ← call (SearchCall query) (search_tool_invoke world query);
     update (set_search_results (Some search_results));;
     update (messages_append
               {| role := "system";
                  content := "Performed initial search for: " +:+ query |})
   else ret tt);;
  state ← get_state;
  research_notes ← call (ResearcherCall query (search_results state) (messages state))
                     (researcher_chain_invoke world query
                        (search_results state) (messages state));
  state ← get_state;
  sources ← match search_results state with
            | Some results => ret (map source_of results)
            | None => raise (TypeError "'NoneType' object is not iterable")
            end;
  update (set_research_notes (Some research_notes));;
  update (set_sources sources);;
  update (messages_append
            {| role := "assistant"; content := "Research phase completed." |});;
  update (set_current_state SYNTHESIS).

(** [def run_synthesis(state)] *)
Definition run_synthesis : M unit :=
  state ← get_state;
  synthesized_research ←
    call (SynthesizerCall (query state) (research_notes state) (sources state)
            (messages state))
         (synthesizer_chain_invoke world (query state)
            (research_notes state) (sources state) (messages state));
  update (set_synthesized_research (Some synthesized_research));;
  update (messages_append
            {| role := "assistant"; content := "Synthesis phase completed." |});;
  update (set_current_state ANSWER).

(** [def run_answer_drafting(state)] *)
Definition run_answer_drafting : M unit :=
  state ← get_state;
  final_answer ←
    call (DrafterCall (query state) (synthesized_research state) (sources state)
            (messages state))
         (drafter_chain_invoke world (query state)
            (synthesized_research state) (sources state) (messages state));
  update (set_final_answer (Some final_answer));;
  update (messages_append
            {| role := "assistant"; content := "Answer drafting phase completed." |});;
  update (set_current_state COMPLETE).

(** [def start_workflow(state)] *)
Definition start_workflow : M unit :=
  state ← get_state;
  update (messages_append
            {| role := "system";
               content := "Starting research workflow for: " +:+ query state |}).

(** ** The router and the graph *)

(** The names [START] and [END] of [langgraph.graph]. *)
Definition START : string := "__start__".
Definition END : string := "__end__".

(** [def route_next_step(state)] *)
Definition route_next_step (state : GraphState) : string :=
  match current_state state with
  | RESEARCH => "synthesis"
  | SYNTHESIS => "answer"
  | ANSWER => "complete"
  | COMPLETE => END
  end.

(** What [StateGraph] collects: the nodes by name, the fixed edges and the
    conditional edges (source node and routing function). *)
Record StateGraph : Type := mkStateGraph {
  nodes : list (string * M unit);
  edges : list (string * string);
  branches : list (string * (GraphState -> string))
}.

Definition StateGraph_new : StateGraph :=
  {| nodes := []; edges := []; branches := [] |}.

Definition add_node (name : string) (action : M unit) (g : StateGraph) : StateGraph :=
  {| nodes := nodes g ++ [(name, action)]; edges := edges g; branches := branches g |}.

Definition add_edge (src dst : string) (g : StateGraph) : StateGraph :=
  {| nodes := nodes g; edges := edges g ++ [(src, dst)]; branches := branches g |}.

Definition add_conditional_edges (src : string) (path : GraphState -> string)
    (g : StateGraph) : StateGraph :=
  {| nodes := nodes g; edges := edges g; branches := branches g ++ [(src, path)] |}.

(** The module-level construction of [workflow], statement by statement. *)
Definition workflow : StateGraph :=
  let workflow := StateGraph_new in
  let workflow := add_node "start" start_workflow workflow in
  let workflow := add_node "research" run_research workflow in
  let workflow := add_node "synthesis" run_synthesis workflow in
  let workflow := add_node "answer" run_answer_drafting workflow in
  let workflow := add_edge START "start" workflow in
  let workflow := add_edge "start" "research" workflow in
  let workflow := add_conditional_edges "research" route_next_step workflow in
  let workflow := add_conditional_edges "synthesis" route_next_step workflow in
  let workflow := add_conditional_edges "answer" route_next_step workflow in
  workflow.

(** ** The engine

    [workflow.compile().invoke(state)] is LangGraph's, not this program's.  It
    is modelled for graphs of the shape built above, in which a node has one
    outgoing fixed edge or one conditional edge: the node at hand runs on the
    state; then its routing function, if it has one, is applied to the state
    as the node left it and names the next node, and otherwise the fixed edge
    does.  The run ends when the destination is [END], when the node has no
    successor, or when the destination names no node (nothing is scheduled
    then).  An exception raised by a node leaves [invoke] as it is.  The
    engine gives up with [GraphRecursionError] after [recursion_limit]
    steps. *)

Fixpoint assoc {A : Type} (key : string) (table : list (string * A)) : option A :=
  match table with
  | [] => None
  | (k, v) :: rest => if String.eqb k key then Some v else assoc key rest
  end.

Definition successor (g : StateGraph) (node : string) (state : GraphState)
    : option string :=
  match assoc node (branches g) with
  | Some path => Some (path state)
  | None => assoc node (edges g)
  end.

Fixpoint run_from (g : StateGraph) (steps : nat) (node : string) : M unit :=
  match steps with
  | O => raise GraphRecursionError
  | S steps' =>
      match assoc node (nodes g) with
      | None => ret tt
      | Some action =>
          state ← get_state;
          emit (NodeEntered node (current_state state));;
          action;;
          state ← get_state;
          match successor g node state with
          | None => ret tt
          | Some next =>
              if String.eqb next END then ret tt else run_from g steps' next
          end
      end
  end.

(** The default of LangGraph's [recursion_limit] setting. *)
Definition recursion_limit : nat := 25.

Definition invoke (g : StateGraph) : M unit :=
  match assoc START (edges g) with
  | Some entry => run_from g recursion_limit entry
  | None => raise (ValueError "Graph must have an entrypoint")
  end.

(** [deep_research_system = workflow.compile()] *)
Definition deep_research_system : M unit := invoke workflow.

(** ** The entry point *)

(** [def run_deep_research(query)]: the result or the exception, together
    with the store as the run left it.  The [print] calls are not modelled. *)
Definition run_deep_research (q : string) : Result Summary * Store :=
  let initial_state := GraphState_init q in
  match deep_research_system {| obj := initial_state; log := [] |} with
  | (Ok _, s) =>
      let result := obj s in
      (Ok {| r_query := query result;
             r_final_answer := final_answer result;
             r_sources := sources result;
             r_workflow_path :=
               content <$> filter (fun msg => role msg = "assistant") (messages result) |},
       s)
  | (Raise e, s) => (Raise e, s)
  end.

End Workflow.

(** ** Reading the record of a run *)

Definition is_search_call (ev : Event) : bool :=
  match ev with SearchCall _ => true | _ => false end.

(** A call to one of the three prompt|model|parser chains. *)
Definition is_chain_call (ev : Event) : bool :=
  match ev with
  | ResearcherCall _ _ _ | SynthesizerCall _ _ _ _ | DrafterCall _ _ _ _ => true
  | _ => false
  end.

(** How many times the search tool was invoked. *)
Definition search_count (l : list Event) : nat :=
  length (List.filter is_search_call l).

(** The nodes entered, in order, each with the tag it saw on entry. *)
Definition nodes_entered (l : list Event) : list (string * AgentState) :=
  omap (fun ev => match ev with NodeEntered n t => Some (n, t) | _ => None end) l.

(** The three nodes that call a language model. *)
Definition is_llm_stage (name : string) : bool :=
  String.eqb name "research" || String.eqb name "synthesis" || String.eqb name "answer".

(** The tags seen on entry to the language-model stages, in order. *)
Definition tags_seen_by_stages (l : list Event) : list AgentState :=
  snd <$> List.filter (fun p => is_llm_stage (fst p)) (nodes_entered l).

(** The projection of a state returned by [run_deep_research]. *)
Definition projection (result : GraphState) : Summary :=
  {| r_query := query result;
     r_final_answer := final_answer result;
     r_sources := sources result;
     r_workflow_path :=
       content <$> filter (fun msg => role msg = "assistant") (messages result) |}.

(** Collaborators that answer every call. *)
Definition reliable (world : Collaborators) : Prop :=
  (forall q, exists r, search_tool_invoke world q = Ok r) /\
  (forall q sr ms, exists t, researcher_chain_invoke world q sr ms = Ok t) /\
  (forall q rn so ms, exists t, synthesizer_chain_invoke world q rn so ms = Ok t) /\
  (forall q sy so ms, exists t, drafter_chain_invoke world q sy so ms = Ok t).

(** ** Properties of records and of computations *)

(** A field of a source record against the upstream record: the upstream
    value when the key is present, the placeholder when it is missing. *)
Definition field_from (placeholder : string) (upstream : option string)
    (field : string) : Prop :=
  match upstream with
  | Some v => field = v
  | None => field = placeholder /\ field <> ""
  end.

(** A computation that keeps the messages it finds, in place and in order,
    and that has added at least one when it returns. *)
Definition append_only (f : M unit) : Prop :=
  forall s,
    messages (obj s) `prefix_of` messages (obj (snd (f s))) /\
    (forall s', f s = (Ok tt, s') ->
       length (messages (obj s)) < length (messages (obj s'))).

(** ** The states a run goes through *)

(** The state after the start node. *)
Definition started (st : GraphState) : GraphState :=
  messages_append
    {| role := "system";
       content := "Starting research workflow for: " +:+ query st |} st.

(** The state after the search step of the research stage. *)
Definition searched (results : list SearchResult) (st : GraphState) : GraphState :=
  messages_append
    {| role := "system";
       content := "Performed initial search for: " +:+ query st |}
    (set_search_results (Some results) st).

(** The state after the rest of the research stage. *)
Definition researched (notes : string) (results : list SearchResult)
    (st : GraphState) : GraphState :=
  set_current_state SYNTHESIS
    (messages_append
       {| role := "assistant"; content := "Research phase completed." |}
       (set_sources (source_of <$> results)
          (set_research_notes (Some notes) st))).

(** The state after the synthesis stage. *)
Definition synthesized (text : string) (st : GraphState) : GraphState :=
  set_current_state ANSWER
    (messages_append
       {| role := "assistant"; content := "Synthesis phase completed." |}
       (set_synthesized_research (Some text) st)).

(** The state after the answer drafting stage. *)
Definition drafted (text : string) (st : GraphState) : GraphState :=
  set_current_state COMPLETE
    (messages_append
       {| role := "assistant"; content := "Answer drafting phase completed." |}
       (set_final_answer (Some text) st)).

(** The record of a run up to and including the search. *)
Definition log_search (q : string) : list Event :=
  [NodeEntered "start" RESEARCH; NodeEntered "research" RESEARCH; SearchCall q].

(** The record of a run up to and including the research chain. *)
Definition log_research (q : string) (results : list SearchResult) : list Event :=
  log_search q ++
  [ResearcherCall q (Some results)
     (messages (searched results (started (GraphState_init q))))].

(** The record of a run up to and including the drafting chain. *)
Definition log_answer (q : string) (results : list SearchResult) (notes : string)
    : list Event :=
  let st := researched notes results (searched results (started (GraphState_init q))) in
  log_research q results ++
  [NodeEntered "answer" SYNTHESIS; DrafterCall q None (sources st) (messages st)].

(** ** Stand-ins for the collaborators *)

Definition paris : SearchResult :=
  <["url" := "https://example.com/paris"]> (<["title" := "Paris"]> ∅).

(** Every collaborator answers with a fixed value. *)
Definition stub_world : Collaborators :=
  {| search_tool_invoke := fun _ => Ok [paris];
     researcher_chain_invoke := fun _ _ _ => Ok "notes";
     synthesizer_chain_invoke := fun _ _ _ _ => Ok "synthesis";
     drafter_chain_invoke := fun _ _ _ _ => Ok "answer" |}.

(** The search tool raises. *)
Definition offline_world : Collaborators :=
  {| search_tool_invoke := fun _ => Raise (ExternalError "search unavailable");
     researcher_chain_invoke := fun _ _ _ => Ok "notes";
     synthesizer_chain_invoke := fun _ _ _ _ => Ok "synthesis";
     drafter_chain_invoke := fun _ _ _ _ => Ok "answer" |}.

(** The drafting chain raises. *)
Definition no_drafter_world : Collaborators :=
  {| search_tool_invoke := fun _ => Ok [paris];
     researcher_chain_invoke := fun _ _ _ => Ok "notes";
     synthesizer_chain_invoke := fun _ _ _ _ => Ok "synthesis";
     drafter_chain_invoke := fun _ _ _ _ => Raise (ExternalError "model unavailable") |}.

Definition capital_query : string := "What is the capital of France?".

(** ** Names for the messages and for properties of runs *)


Definition search_message (q : string) : Message :=
  {| role := "system"; content := "Performed initial search for: " +:+ q |}.





(** The research chain raises. *)
Definition no_researcher_world : Collaborators :=
  {| search_tool_invoke := fun _ => Ok [paris];
     researcher_chain_invoke := fun _ _ _ => Raise (ExternalError "model unavailable");
     synthesizer_chain_invoke := fun _ _ _ _ => Ok "synthesis";
     drafter_chain_invoke := fun _ _ _ _ => Ok "answer" |}.

(** ** The HTTP endpoint of [flask_api.py] *)

(** A value parsed from JSON, as Python holds it: [None], a [bool], an [int]
    (unbounded), a [float] (the 64 bits of the IEEE double), a [str], a
    [list] or a [dict] with string keys. *)
Inductive Json : Type :=
| JNull
| JBool (b : bool)
| JInt (z : Z)
| JFloat (bits : N)
| JStr (s : string)
| JList (l : list Json)
| JDict (d : gmap string Json).

(** Python truth value: [None], [False], zero (an integer 0 or a float whose
    bits other than the sign are all zero), the empty string, the empty list
    and the empty dict are false. *)
Definition json_truthy (v : Json) : bool :=
  match v with
  | JNull => false
  | JBool b => b
  | JInt z => negb (Z.eqb z 0)
  | JFloat bits => negb (N.eqb (N.modulo bits (2 ^ 63)) 0)
  | JStr s => negb (String.eqb s "")
  | JList l => match l with [] => false | _ :: _ => true end
  | JDict d => negb (Nat.eqb (size d) 0)
  end.

(** What the handler can let escape: an exception of the pipeline or of the
    interpreter, or a [KeyError]. *)
Inductive PyError : Type :=
| Core (e : Exn)
| KeyError (key : string).

(** ["query" in data]: a key of a dict, an element of a list, a substring of
    a string; other values are not iterable. *)
Definition contains_query (data : Json) : bool + PyError :=
  match data with
  | JDict d => inl (match d !! "query" with Some _ => true | None => false end)
  | JList l =>
      inl (existsb (fun v => match v with
                             | JStr s => String.eqb s "query"
                             | _ => false
                             end) l)
  | JStr s => inl (match String.index 0 "query" s with Some _ => true | None => false end)
  | JNull => inr (Core (TypeError "argument of type 'NoneType' is not iterable"))
  | JBool _ => inr (Core (TypeError "argument of type 'bool' is not iterable"))
  | JInt _ => inr (Core (TypeError "argument of type 'int' is not iterable"))
  | JFloat _ => inr (Core (TypeError "argument of type 'float' is not iterable"))
  end.

(** [data["query"]] *)
Definition getitem_query (data : Json) : Json + PyError :=
  match data with
  | JDict d =>
      match d !! "query" with
      | Some v => inl v
      | None => inr (KeyError "query")
      end
  | JList _ => inr (Core (TypeError "list indices must be integers or slices, not str"))
  | JStr _ => inr (Core (TypeError "string indices must be integers, not 'str'"))
  | JNull => inr (Core (TypeError "'NoneType' object is not subscriptable"))
  | JBool _ => inr (Core (TypeError "'bool' object is not subscriptable"))
  | JInt _ => inr (Core (TypeError "'int' object is not subscriptable"))
  | JFloat _ => inr (Core (TypeError "'float' object is not subscriptable"))
  end.

(** [not data or "query" not in data or not data["query"]], evaluated from
    left to right as far as needed. *)
Definition query_is_missing (data : Json) : bool + PyError :=
  if negb (json_truthy data) then inl true
  else
    match contains_query data with
    | inr err => inr err
    | inl false => inl true
    | inl true =>
        match getitem_query data with
        | inr err => inr err
        | inl v => inl (negb (json_truthy v))
        end
    end.

(** What the handler reads of the request: the outcome of
    [request.get_json(force=True)] and that of
    [request.data.decode("utf-8")], both Flask's. *)
Record Request : Type := mkRequest {
  get_json : Result Json;
  data_decode : Result string
}.

(** The dictionary [clean_results] of the handler. *)
Record CleanResults : Type := mkCleanResults {
  c_query : Json;
  c_final_answer : option string;
  c_sources : list Source;
  c_workflow_path : list string
}.

(** The JSON bodies that the handler builds; the text of the exception and of
    the traceback are functions of the exception, which is kept as it is. *)
Inductive Body : Type :=
| InvalidJSON (details : Exn) (raw_data : string)
| QueryRequired (received_data : Json)
| Results (clean_results : CleanResults)
| ResearchError (details : PyError).

Record Response : Type := mkResponse {
  body : Body;
  status : nat
}.

Section Endpoint.

Context (world : Collaborators).

(** [run_deep_research] is written for a string.  What it does with a value
    of another type that the handler passes on is decided by the
    collaborators and is a parameter here: the result or the exception, and
    the record of the run. *)
Context (run_untyped : Json -> Result CleanResults * list Event).

(** [run_deep_research(data["query"])] followed by the four [results.get]
    of [clean_results]; each key is in the result, so no default is used. *)
Definition research (value : Json) : Result CleanResults * list Event :=
  match value with
  | JStr q =>
      match run_deep_research world q with
      | (Ok results, s) =>
          (Ok {| c_query := JStr (r_query results);
                 c_final_answer := r_final_answer results;
                 c_sources := r_sources results;
                 c_workflow_path := r_workflow_path results |}, log s)
      | (Raise e, s) => (Raise e, log s)
      end
  | _ => run_untyped value
  end.

(** [def deep_research_endpoint()]: the response, or the exception that the
    handler lets escape, and the record of the run if one was made. *)
Definition deep_research_endpoint (request : Request)
    : (Response + PyError) * list Event :=
  match get_json request with
  | Raise e =>
      match data_decode request with
      | Ok raw => (inl {| body := InvalidJSON e raw; status := 400 |}, [])
      | Raise e' => (inr (Core e'), [])
      end
  | Ok data =>
      match query_is_missing data with
      | inr err => (inr err, [])
      | inl true => (inl {| body := QueryRequired data; status := 400 |}, [])
      | inl false =>
          match getitem_query data with
          | inr err => (inl {| body := ResearchError err; status := 500 |}, [])
          | inl value =>
              match research value with
              | (Ok clean_results, events) =>
                  (inl {| body := Results clean_results; status := 200 |}, events)
              | (Raise e, events) =>
                  (inl {| body := ResearchError (Core e); status := 500 |}, events)
              end
          end
      end
  end.

End Endpoint.

(** A request whose body is the object with the one key [query]. *)
Definition query_request (q : string) : Request :=
  {| get_json := Ok (JDict (<["query" := JStr q]> ∅)); data_decode := Ok "" |}.

(** For the stand-ins: a query that is not a string is refused by the search
    tool. *)
Definition refuse_untyped (value : Json) : Result CleanResults * list Event :=
  (Raise (ExternalError "query must be a string"), []).

(** ** What each node function does, case by case *)

Ltac run_node :=
  unfold run_research, run_synthesis, run_answer_drafting, start_workflow,
    mbind, M_bind, bind, get_state, call, update, emit, ret, raise; simpl.

Section NodeFacts.

Context (world : Collaborators).

Lemma start_workflow_run (s : Store) :
  start_workflow s = (Ok tt, {| obj := started (obj s); log := log s |}).
Proof. reflexivity. Qed.

(** The research stage on a state whose search results are a non-empty list:
    no search, only the chain. *)
Lemma run_research_set (s : Store) (r : SearchResult) (rs : list SearchResult) :
  search_results (obj s) = Some (r :: rs) ->
  run_research world s =
    let st := obj s in
    let l := log s ++ [ResearcherCall (query st) (Some (r :: rs)) (messages st)] in
    match researcher_chain_invoke world (query st) (Some (r :: rs)) (messages st) with
    | Ok notes => (Ok tt, {| obj := researched notes (r :: rs) st; log := l |})
    | Raise e => (Raise e, {| obj := st; log := l |})
    end.
Proof.
  destruct s as [[q sr rn so sy fa ms cs] l]; simpl; intros ->.
  run_node. destruct (researcher_chain_invoke world _ _ _); reflexivity.
Qed.

(** The research stage on a state whose search results are [None] or the
    empty list: the search first, then the chain. *)
Lemma run_research_unset (s : Store) :
  truthy (search_results (obj s)) = false ->
  run_research world s =
    let st := obj s in
    let l1 := log s ++ [SearchCall (query st)] in
    match search_tool_invoke world (query st) with
    | Raise e => (Raise e, {| obj := st; log := l1 |})
    | Ok results =>
        let st1 := searched results st in
        let l2 := l1 ++ [ResearcherCall (query st) (Some results) (messages st1)] in
        match researcher_chain_invoke world (query st) (Some results) (messages st1) with
        | Ok notes => (Ok tt, {| obj := researched notes results st1; log := l2 |})
        | Raise e => (Raise e, {| obj := st1; log := l2 |})
        end
    end.
Proof.
  destruct s as [[q sr rn so sy fa ms cs] l]; simpl; intros Hunset.
  run_node. rewrite Hunset. simpl.
  destruct (search_tool_invoke world _); simpl; [|reflexivity].
  destruct (researcher_chain_invoke world _ _ _); reflexivity.
Qed.

Lemma run_synthesis_run (s : Store) :
  run_synthesis world s =
    let st := obj s in
    let l := log s ++ [SynthesizerCall (query st) (research_notes st) (sources st)
                         (messages st)] in
    match synthesizer_chain_invoke world (query st) (research_notes st) (sources st)
            (messages st) with
    | Ok text => (Ok tt, {| obj := synthesized text st; log := l |})
    | Raise e => (Raise e, {| obj := st; log := l |})
    end.
Proof. run_node. destruct (synthesizer_chain_invoke world _ _ _ _); reflexivity. Qed.

Lemma run_answer_drafting_run (s : Store) :
  run_answer_drafting world s =
    let st := obj s in
    let l := log s ++ [DrafterCall (query st) (synthesized_research st) (sources st)
                         (messages st)] in
    match drafter_chain_invoke world (query st) (synthesized_research st) (sources st)
            (messages st) with
    | Ok text => (Ok tt, {| obj := drafted text st; log := l |})
    | Raise e => (Raise e, {| obj := st; log := l |})
    end.
Proof. run_node. destruct (drafter_chain_invoke world _ _ _ _); reflexivity. Qed.

(** The truth value of the search results decides which case applies. *)
Lemma truthy_cases (v : option (list SearchResult)) :
  (exists r rs, v = Some (r :: rs)) \/ truthy v = false.
Proof. destruct v as [[|r rs]|]; eauto. Qed.

End NodeFacts.

(** ** What a whole run does, case by case *)

Section RunFacts.

Context (world : Collaborators).

(** Symbolic execution of [run_deep_research]: the run is decided by the
    answers of the search tool, the research chain and the drafting chain. *)
Lemma run_deep_research_cases (q : string) :
  run_deep_research world q =
    let st0 := started (GraphState_init q) in
    match search_tool_invoke world q with
    | Raise e => (Raise e, {| obj := st0; log := log_search q |})
    | Ok results =>
        let st1 := searched results st0 in
        match researcher_chain_invoke world q (Some results) (messages st1) with
        | Raise e => (Raise e, {| obj := st1; log := log_research q results |})
        | Ok notes =>
            let st2 := researched notes results st1 in
            match drafter_chain_invoke world q None (sources st2) (messages st2) with
            | Raise e => (Raise e, {| obj := st2; log := log_answer q results notes |})
            | Ok text =>
                (Ok (projection (drafted text st2)),
                 {| obj := drafted text st2; log := log_answer q results notes |})
            end
        end
    end.
Proof.
  unfold run_deep_research, deep_research_system, invoke. simpl.
  run_node.
  destruct (search_tool_invoke world q) as [results|e]; simpl; [|reflexivity].
  destruct (researcher_chain_invoke world q _ _) as [notes|e]; simpl; [|reflexivity].
  destruct (drafter_chain_invoke world q _ _ _) as [text|e]; simpl; reflexivity.
Qed.

(** With collaborators that answer, the run returns. *)
Lemma run_deep_research_returns (q : string) :
  reliable world -> exists r s, run_deep_research world q = (Ok r, s).
Proof.
  intros (Hsearch & Hres & _ & Hdraft). rewrite run_deep_research_cases. simpl.
  destruct (Hsearch q) as [results ->].
  edestruct Hres as [notes ->]. edestruct Hdraft as [text ->]. eauto.
Qed.

End RunFacts.

(** ** The sources derived by the research stage *)

Lemma source_of_fields (result : SearchResult) :
  field_from "Unknown Title" (result !! "title") (title (source_of result)) /\
  field_from "Unknown URL" (result !! "url") (url (source_of result)) /\
  field_from "Unknown Date" (result !! "published_date")
    (published_date (source_of result)).
Proof.
  unfold source_of, field_from; simpl.
  repeat split; match goal with |- context [?m !! ?k] => destruct (m !! k) end;
    simpl; try split; congruence.
Qed.

(** Whenever the research stage returns, the search results are a list and
    the sources are that list mapped through [source_of]. *)
Lemma run_research_returns_sources (world : Collaborators) (s s' : Store) :
  run_research world s = (Ok tt, s') ->
  exists results,
    search_results (obj s') = Some results /\
    sources (obj s') = source_of <$> results.
Proof.
  destruct (truthy_cases (search_results (obj s))) as [(r & rs & Hset)|Hunset].
  - rewrite (run_research_set world s r rs Hset). simpl.
    destruct (researcher_chain_invoke world _ _ _); [|discriminate].
    intros [= <-]. exists (r :: rs). simpl. auto.
  - rewrite (run_research_unset world s Hunset). simpl.
    destruct (search_tool_invoke world _) as [results|]; [|discriminate].
    destruct (researcher_chain_invoke world _ _ _); [|discriminate].
    intros [= <-]. exists results. simpl. auto.
Qed.

(** C2: when the research stage returns, [sources] has one record per search
    record, in order, and each of its three fields is the upstream field when
    the key is present and the non-empty placeholder when it is missing; on a
    state whose search results are set, the stage returns whenever the
    research chain answers, whatever keys the records have or lack. *)
Theorem research_sources_match_search_results (world : Collaborators) (s : Store) :
  (forall s', run_research world s = (Ok tt, s') ->
     exists results,
       search_results (obj s') = Some results /\
       length (sources (obj s')) = length results /\
       forall (i : nat) (result : SearchResult),
         results !! i = Some result ->
         exists src,
           sources (obj s') !! i = Some src /\
           field_from "Unknown Title" (result !! "title") (title src) /\
           field_from "Unknown URL" (result !! "url") (url src) /\
           field_from "Unknown Date" (result !! "published_date") (published_date src)) /\
  (forall r rs notes,
     search_results (obj s) = Some (r :: rs) ->
     researcher_chain_invoke world (query (obj s)) (Some (r :: rs)) (messages (obj s))
       = Ok notes ->
     exists s', run_research world s = (Ok tt, s') /\
                search_results (obj s') = Some (r :: rs)).
Proof.
  split.
  - intros s' Hrun.
    destruct (run_research_returns_sources world s s' Hrun) as (results & Hsr & Hso).
    exists results. split; [exact Hsr|]. rewrite Hso. split; [apply length_fmap|].
    intros i result Hi. exists (source_of result). split.
    + rewrite list_lookup_fmap, Hi. reflexivity.
    + apply source_of_fields.
  - intros r rs notes Hset Hnotes.
    rewrite (run_research_set world s r rs Hset). simpl. rewrite Hnotes.
    eexists. split; [reflexivity|]. simpl. exact Hset.
Qed.

(** The stage on the state of a run after its start node, holding one search
    record that lacks the published date. *)
Lemma research_sources_match_search_results_witness :
  let s := {| obj := set_search_results (Some [paris])
                       (started (GraphState_init capital_query));
              log := [] |} in
  let s' := snd (run_research stub_world s) in
  run_research stub_world s = (Ok tt, s') /\
  exists results,
    search_results (obj s') = Some results /\
    length (sources (obj s')) = length results /\
    forall (i : nat) (result : SearchResult),
      results !! i = Some result ->
      exists src,
        sources (obj s') !! i = Some src /\
        field_from "Unknown Title" (result !! "title") (title src) /\
        field_from "Unknown URL" (result !! "url") (url src) /\
        field_from "Unknown Date" (result !! "published_date") (published_date src).
Proof.
  intros s s'. split; [reflexivity|].
  destruct (proj2 (research_sources_match_search_results stub_world s)
              paris [] "notes" eq_refl eq_refl) as (s1 & Hrun & _).
  apply (proj1 (research_sources_match_search_results stub_world s) s').
  subst s'. rewrite Hrun. reflexivity.
Defined.

(** ** The query *)

Lemma run_research_keeps_query (world : Collaborators) (s : Store) :
  query (obj (snd (run_research world s))) = query (obj s).
Proof.
  destruct (truthy_cases (search_results (obj s))) as [(r & rs & Hset)|Hunset].
  - rewrite (run_research_set world s r rs Hset). simpl.
    destruct (researcher_chain_invoke world _ _ _); reflexivity.
  - rewrite (run_research_unset world s Hunset). simpl.
    destruct (search_tool_invoke world _); [|reflexivity].
    destruct (researcher_chain_invoke world _ _ _); reflexivity.
Qed.

Lemma run_synthesis_keeps_query (world : Collaborators) (s : Store) :
  query (obj (snd (run_synthesis world s))) = query (obj s).
Proof.
  rewrite run_synthesis_run. simpl.
  destruct (synthesizer_chain_invoke world _ _ _ _); reflexivity.
Qed.

Lemma run_answer_drafting_keeps_query (world : Collaborators) (s : Store) :
  query (obj (snd (run_answer_drafting world s))) = query (obj s).
Proof.
  rewrite run_answer_drafting_run. simpl.
  destruct (drafter_chain_invoke world _ _ _ _); reflexivity.
Qed.

(** C4: no node function changes the query of the state, whether it returns
    or raises; the state of a run holds the input query when the run ends;
    and with collaborators that answer, [run_deep_research] returns a result
    whose query is the input. *)
Theorem query_is_returned_unchanged (world : Collaborators) (q : string) :
  (forall s, query (obj (snd (start_workflow s))) = query (obj s)) /\
  (forall s, query (obj (snd (run_research world s))) = query (obj s)) /\
  (forall s, query (obj (snd (run_synthesis world s))) = query (obj s)) /\
  (forall s, query (obj (snd (run_answer_drafting world s))) = query (obj s)) /\
  query (GraphState_init q) = q /\
  query (obj (snd (run_deep_research world q))) = q /\
  (forall r, fst (run_deep_research world q) = Ok r -> r_query r = q) /\
  (reliable world -> exists r, fst (run_deep_research world q) = Ok r /\ r_query r = q).
Proof.
  assert (Hret : forall r, fst (run_deep_research world q) = Ok r -> r_query r = q).
  { intros r. rewrite run_deep_research_cases. simpl.
    destruct (search_tool_invoke world q); [|discriminate].
    destruct (researcher_chain_invoke world q _ _); [|discriminate].
    destruct (drafter_chain_invoke world q _ _ _); [|discriminate].
    simpl. intros [= <-]. reflexivity. }
  split; [reflexivity|].
  split; [apply run_research_keeps_query|].
  split; [apply run_synthesis_keeps_query|].
  split; [apply run_answer_drafting_keeps_query|].
  split; [reflexivity|]. split; [|split; [exact Hret|]].
  - rewrite run_deep_research_cases. simpl.
    destruct (search_tool_invoke world q); [|reflexivity].
    destruct (researcher_chain_invoke world q _ _); [|reflexivity].
    destruct (drafter_chain_invoke world q _ _ _); reflexivity.
  - intros Hrel. destruct (run_deep_research_returns world q Hrel) as (r & s & Hrun).
    exists r. rewrite Hrun. split; [reflexivity|]. apply Hret. rewrite Hrun. reflexivity.
Qed.

Lemma query_is_returned_unchanged_witness :
  reliable stub_world /\
  exists r, fst (run_deep_research stub_world capital_query) = Ok r /\
            r_query r = "What is the capital of France?".
Proof.
  assert (Hrel : reliable stub_world)
    by (repeat split; intros; eexists; reflexivity).
  split; [exact Hrel|].
  apply (query_is_returned_unchanged stub_world capital_query). exact Hrel.
Defined.

(** ** The search is performed once *)

Lemma search_count_snoc (l : list Event) (ev : Event) :
  search_count (l ++ [ev]) = search_count l + (if is_search_call ev then 1 else 0).
Proof.
  unfold search_count. rewrite List.filter_app, length_app. simpl.
  destruct (is_search_call ev); reflexivity.
Qed.

Lemma truthy_true (v : option (list SearchResult)) :
  truthy v = true -> exists r rs, v = Some (r :: rs).
Proof. destruct v as [[|r rs]|]; simpl; try discriminate; eauto. Qed.

(** On a state whose search results are set, the research stage leaves them
    as they are and does not call the search tool. *)
Lemma run_research_no_search (world : Collaborators) (s : Store) :
  truthy (search_results (obj s)) = true ->
  search_count (log (snd (run_research world s))) = search_count (log s) /\
  search_results (obj (snd (run_research world s))) = search_results (obj s).
Proof.
  intros Ht. destruct (truthy_true _ Ht) as (r & rs & Hset).
  rewrite (run_research_set world s r rs Hset). simpl.
  destruct (researcher_chain_invoke world _ _ _); simpl;
    rewrite search_count_snoc; simpl; split; auto with arith.
Qed.

(** On a state whose search results are unset, it calls the search tool
    once. *)
Lemma run_research_one_search (world : Collaborators) (s : Store) :
  truthy (search_results (obj s)) = false ->
  search_count (log (snd (run_research world s))) = S (search_count (log s)).
Proof.
  intros Hunset. rewrite (run_research_unset world s Hunset). simpl.
  destruct (search_tool_invoke world _); simpl;
    [destruct (researcher_chain_invoke world _ _ _); simpl|];
    rewrite ?search_count_snoc; simpl; lia.
Qed.

(** ** The fresh state and the search guard *)

(** C10: a fresh state has empty [sources] and [messages], no search results,
    notes, synthesis or answer, and the tag [RESEARCH]; the guard of the
    research stage is the truth value of the search results: on a fresh
    state, and on any state whose search results are [None] or the empty
    list, the stage calls the search tool first, while on a state whose
    search results are a list with a record it calls the search tool not at
    all and keeps the list. *)
Theorem fresh_state_and_search_guard (world : Collaborators) (q : string) :
  GraphState_init q =
    {| query := q; search_results := None; research_notes := None; sources := [];
       synthesized_research := None; final_answer := None; messages := [];
       current_state := RESEARCH |} /\
  truthy (search_results (GraphState_init q)) = false /\
  truthy (Some []) = false /\
  (forall (st : GraphState) (l : list Event), exists rest,
      log (snd (run_research world {| obj := set_search_results (Some []) st; log := l |}))
      = l ++ SearchCall (query st) :: rest) /\
  (forall (st : GraphState) (l : list Event), exists rest,
      log (snd (run_research world {| obj := set_search_results None st; log := l |}))
      = l ++ SearchCall (query st) :: rest) /\
  (forall (l : list Event), exists rest,
      log (snd (run_research world {| obj := GraphState_init q; log := l |}))
      = l ++ SearchCall q :: rest) /\
  (forall (r : SearchResult) (rs : list SearchResult), truthy (Some (r :: rs)) = true) /\
  (forall (st : GraphState) (l : list Event) (r : SearchResult) (rs : list SearchResult),
      let s' := snd (run_research world
                       {| obj := set_search_results (Some (r :: rs)) st; log := l |}) in
      search_count (log s') = search_count l /\
      Forall (fun ev => is_search_call ev = false) (drop (length l) (log s')) /\
      search_results (obj s') = Some (r :: rs)).
Proof.
  split; [reflexivity|]. split; [reflexivity|]. split; [reflexivity|].
  assert (Hsearches : forall (st : GraphState) (l : list Event),
            truthy (search_results st) = false ->
            exists rest,
              log (snd (run_research world {| obj := st; log := l |}))
              = l ++ SearchCall (query st) :: rest).
  { intros st l Hunset.
    rewrite (run_research_unset world {| obj := st; log := l |} Hunset). simpl.
    destruct (search_tool_invoke world _); simpl;
      try destruct (researcher_chain_invoke world _ _ _); simpl;
      rewrite <- ?app_assoc; eexists; reflexivity. }
  split; [intros st l; apply (Hsearches (set_search_results (Some []) st) l eq_refl)|].
  split; [intros st l; apply (Hsearches (set_search_results None st) l eq_refl)|].
  split; [intros l; apply (Hsearches (GraphState_init q) l eq_refl)|].
  split; [reflexivity|].
  intros st l r rs.
  rewrite (run_research_set world
             {| obj := set_search_results (Some (r :: rs)) st; log := l |} r rs eq_refl).
  cbv zeta. cbn [obj log].
  destruct (researcher_chain_invoke world _ _ _); cbn [snd obj log];
    rewrite search_count_snoc, drop_app_length; cbn [is_search_call];
    (split; [lia|]); (split; [repeat constructor | reflexivity]).
Qed.

(** On a state that holds one search record the stage makes no search and
    keeps the record; on a state that holds the empty list it searches. *)
Lemma fresh_state_and_search_guard_witness :
  let held := {| obj := set_search_results (Some [paris])
                          (started (GraphState_init capital_query));
                 log := [] |} in
  let empty := {| obj := set_search_results (Some [])
                           (started (GraphState_init capital_query));
                  log := [] |} in
  search_count (log (snd (run_research stub_world held))) = 0 /\
  search_results (obj (snd (run_research stub_world held))) = Some [paris] /\
  search_count (log (snd (run_research stub_world empty))) = 1.
Proof.
  intros held empty.
  destruct (fresh_state_and_search_guard stub_world capital_query)
    as (_ & _ & _ & Hempty & _ & _ & _ & Hheld).
  destruct (Hheld (started (GraphState_init capital_query)) [] paris [])
    as (Hcount & _ & Hkept).
  split; [exact Hcount|]. split; [exact Hkept|].
  destruct (Hempty (started (GraphState_init capital_query)) []) as [rest Hlog].
  subst empty. rewrite Hlog. vm_compute in Hlog.
  injection Hlog as <-. reflexivity.
Defined.

(** C5: the record of every run holds exactly one call of the search tool,
    hence at most one, and one when the run returns; the research stage
    calls the search tool when the search results are unset (absent or the
    empty list) and only then; once they are set (a list with a record) it
    neither overwrites them nor searches, however often it is entered, and no
    other node writes them or searches. *)
Theorem search_is_performed_once (world : Collaborators) (q : string) :
  search_count (log (snd (run_deep_research world q))) <= 1 /\
  (forall r, fst (run_deep_research world q) = Ok r ->
     search_count (log (snd (run_deep_research world q))) = 1) /\
  (forall s, truthy (search_results (obj s)) = false ->
     search_count (log (snd (run_research world s))) = S (search_count (log s))) /\
  (forall s, truthy (search_results (obj s)) = true ->
     search_count (log (snd (run_research world s))) = search_count (log s) /\
     search_results (obj (snd (run_research world s))) = search_results (obj s)) /\
  (forall s s', run_research world s = (Ok tt, s') ->
     truthy (search_results (obj s')) = true ->
     search_count (log (snd (run_research world s'))) = search_count (log s') /\
     search_results (obj (snd (run_research world s'))) = search_results (obj s')) /\
  (forall s,
     search_results (obj (snd (start_workflow s))) = search_results (obj s) /\
     search_count (log (snd (start_workflow s))) = search_count (log s)) /\
  (forall s,
     search_results (obj (snd (run_synthesis world s))) = search_results (obj s) /\
     search_count (log (snd (run_synthesis world s))) = search_count (log s)) /\
  (forall s,
     search_results (obj (snd (run_answer_drafting world s))) = search_results (obj s) /\
     search_count (log (snd (run_answer_drafting world s))) = search_count (log s)).
Proof.
  assert (Hone : search_count (log (snd (run_deep_research world q))) = 1).
  { rewrite run_deep_research_cases. simpl.
    destruct (search_tool_invoke world q); [|reflexivity].
    destruct (researcher_chain_invoke world q _ _); [|reflexivity].
    destruct (drafter_chain_invoke world q _ _ _); reflexivity. }
  split; [rewrite Hone; constructor|].
  split; [intros; exact Hone|].
  split; [apply run_research_one_search|].
  split; [apply run_research_no_search|].
  split; [intros s s' _; apply run_research_no_search|].
  split; [intros s; split; reflexivity|].
  split; intros s.
  - rewrite run_synthesis_run. simpl.
    destruct (synthesizer_chain_invoke world _ _ _ _); simpl;
      rewrite search_count_snoc; simpl; split; auto with arith.
  - rewrite run_answer_drafting_run. simpl.
    destruct (drafter_chain_invoke world _ _ _ _); simpl;
      rewrite search_count_snoc; simpl; split; auto with arith.
Qed.

(** A run that returns, and the research stage entered a second time on the
    state that its first execution left. *)
Lemma search_is_performed_once_witness :
  let s := {| obj := started (GraphState_init capital_query); log := [] |} in
  let s' := snd (run_research stub_world s) in
  search_count (log (snd (run_deep_research stub_world capital_query))) = 1 /\
  search_count (log s') = 1 /\
  search_count (log (snd (run_research stub_world s'))) = 1 /\
  search_results (obj (snd (run_research stub_world s'))) = Some [paris].
Proof.
  intros s s'.
  pose proof (search_is_performed_once stub_world capital_query)
    as (_ & Hrun & Hunset & _ & Hagain & _).
  assert (Hreturns : fst (run_deep_research stub_world capital_query)
                     = Ok (projection (obj (snd (run_deep_research stub_world capital_query)))))
    by (vm_compute; reflexivity).
  assert (Hfirst : run_research stub_world s = (Ok tt, s')) by (vm_compute; reflexivity).
  assert (Hset : truthy (search_results (obj s')) = true) by (vm_compute; reflexivity).
  assert (Hunset0 : truthy (search_results (obj s)) = false) by (vm_compute; reflexivity).
  split; [exact (Hrun _ Hreturns)|].
  split; [exact (Hunset s Hunset0)|].
  destruct (Hagain s s' Hfirst Hset) as [Hcount Hkept].
  split; [rewrite Hcount; exact (Hunset s Hunset0) | rewrite Hkept; vm_compute; reflexivity].
Defined.

(** ** The messages only grow *)

Lemma prefix_snoc (l : list Message) (m : Message) : l `prefix_of` l ++ [m].
Proof. exists [m]. reflexivity. Qed.

Lemma prefix_snoc2 (l : list Message) (m1 m2 : Message) :
  l `prefix_of` (l ++ [m1]) ++ [m2].
Proof. exists [m1; m2]. rewrite <- app_assoc. reflexivity. Qed.

Lemma start_workflow_append_only : append_only start_workflow.
Proof.
  intros s. rewrite start_workflow_run. simpl. split; [apply prefix_snoc|].
  intros s' [= <-]. simpl. rewrite length_app. simpl. lia.
Qed.

Lemma run_research_append_only (world : Collaborators) :
  append_only (run_research world).
Proof.
  intros s. destruct (truthy_cases (search_results (obj s))) as [(r & rs & Hset)|Hunset].
  - rewrite (run_research_set world s r rs Hset). simpl.
    destruct (researcher_chain_invoke world _ _ _); simpl.
    + split; [apply prefix_snoc|]. intros s' [= <-]. simpl.
      rewrite length_app. simpl. lia.
    + split; [reflexivity | discriminate].
  - rewrite (run_research_unset world s Hunset). simpl.
    destruct (search_tool_invoke world _); simpl; [|split; [reflexivity | discriminate]].
    destruct (researcher_chain_invoke world _ _ _); simpl.
    + split; [apply prefix_snoc2|]. intros s' [= <-]. simpl.
      rewrite !length_app. simpl. lia.
    + split; [apply prefix_snoc | discriminate].
Qed.

Lemma run_synthesis_append_only (world : Collaborators) :
  append_only (run_synthesis world).
Proof.
  intros s. rewrite run_synthesis_run. simpl.
  destruct (synthesizer_chain_invoke world _ _ _ _); simpl.
  - split; [apply prefix_snoc|]. intros s' [= <-]. simpl. rewrite length_app. simpl. lia.
  - split; [reflexivity | discriminate].
Qed.

Lemma run_answer_drafting_append_only (world : Collaborators) :
  append_only (run_answer_drafting world).
Proof.
  intros s. rewrite run_answer_drafting_run. simpl.
  destruct (drafter_chain_invoke world _ _ _ _); simpl.
  - split; [apply prefix_snoc|]. intros s' [= <-]. simpl. rewrite length_app. simpl. lia.
  - split; [reflexivity | discriminate].
Qed.

(** Every node registered in the graph is append-only. *)
Lemma workflow_nodes_append_only (world : Collaborators) (node : string) (action : M unit) :
  assoc node (nodes (workflow world)) = Some action -> append_only action.
Proof.
  cbn -[String.eqb].
  repeat match goal with
         | |- context [String.eqb ?a node] => destruct (String.eqb a node)
         end;
    intros [= <-];
    auto using start_workflow_append_only, run_research_append_only,
      run_synthesis_append_only, run_answer_drafting_append_only.
Qed.

(** The engine, from any node and any store, keeps the messages it finds. *)
Lemma run_from_keeps_messages (world : Collaborators) (steps : nat) :
  forall (node : string) (s : Store),
    messages (obj s) `prefix_of`
      messages (obj (snd (run_from (workflow world) steps node s))).
Proof.
  induction steps as [|steps IH]; intros node s; [reflexivity|].
  cbn [run_from].
  destruct (assoc node (nodes (workflow world))) as [action|] eqn:Hnode; [|reflexivity].
  pose proof (workflow_nodes_append_only world node action Hnode) as Hact.
  unfold mbind, M_bind, bind, get_state, emit, ret. cbn [obj log fst snd].
  destruct (Hact {| obj := obj s; log := log s ++ [NodeEntered node (current_state (obj s))] |})
    as [Hpre _].
  destruct (action _) as [[[]|e] s1]; cbn [obj snd] in *; [|exact Hpre].
  destruct (successor (workflow world) node (obj s1)) as [next|]; [|exact Hpre].
  destruct (String.eqb next END); [exact Hpre|].
  etransitivity; [exact Hpre | apply IH].
Qed.

Lemma run_from_keeps_messages_after (world : Collaborators) (steps : nat)
    (node : string) (s : Store) (m : Message) (l : list Event) :
  messages (obj s) `prefix_of`
    messages (obj (snd (run_from (workflow world) steps node
                          {| obj := messages_append m (obj s); log := l |}))).
Proof.
  etransitivity; [|apply run_from_keeps_messages]. apply prefix_snoc.
Qed.

(** The engine enters the start node and goes on to the research node. *)
Lemma deep_research_system_start (world : Collaborators) (s : Store) :
  deep_research_system world s =
    run_from (workflow world) 24 "research"
      {| obj := started (obj s);
         log := log s ++ [NodeEntered "start" (current_state (obj s))] |}.
Proof. reflexivity. Qed.

(** C7: each of the four node functions keeps the messages it finds, in
    place and in order, whether it returns or raises, and has appended at
    least one message when it returns; so does the whole engine from any
    state. *)
Theorem messages_are_append_only (world : Collaborators) :
  append_only start_workflow /\
  append_only (run_research world) /\
  append_only (run_synthesis world) /\
  append_only (run_answer_drafting world) /\
  append_only (deep_research_system world).
Proof.
  split; [apply start_workflow_append_only|].
  split; [apply run_research_append_only|].
  split; [apply run_synthesis_append_only|].
  split; [apply run_answer_drafting_append_only|].
  intros s. rewrite deep_research_system_start.
  split; [apply run_from_keeps_messages_after|]. intros s' Hrun.
  pose proof (run_from_keeps_messages world 24 "research"
    {| obj := started (obj s);
       log := log s ++ [NodeEntered "start" (current_state (obj s))] |}) as Hpre.
  rewrite Hrun in Hpre. cbn [snd obj started messages_append messages] in Hpre.
  destruct Hpre as [added ->]. rewrite !length_app. cbn [length]. lia.
Qed.

(** The engine on a fresh state, with the stand-ins: no message before, four
    after. *)
Lemma messages_are_append_only_witness :
  let s := {| obj := GraphState_init capital_query; log := [] |} in
  let s' := snd (deep_research_system stub_world s) in
  deep_research_system stub_world s = (Ok tt, s') /\
  messages (obj s) `prefix_of` messages (obj s') /\
  length (messages (obj s)) < length (messages (obj s')).
Proof.
  intros s s'.
  assert (Hrun : deep_research_system stub_world s = (Ok tt, s'))
    by (vm_compute; reflexivity).
  destruct (messages_are_append_only stub_world) as (_ & _ & _ & _ & Hengine).
  destruct (Hengine s) as [Hprefix Hgrows].
  split; [exact Hrun|]. split; [exact Hprefix | exact (Hgrows s' Hrun)].
Defined.

(** ** Failure of the search tool *)

(** C8: when the search tool raises on the query, the research stage on a
    state with unset search results raises that exception, having written
    nothing and called no chain; and the run raises it too, its record being
    the two nodes entered and the search call, with no call of a chain. *)
Theorem search_failure_aborts_run (world : Collaborators) (q : string) (e : Exn) :
  search_tool_invoke world q = Raise e ->
  (forall s, query (obj s) = q -> truthy (search_results (obj s)) = false ->
     run_research world s =
       (Raise e, {| obj := obj s; log := log s ++ [SearchCall q] |})) /\
  fst (run_deep_research world q) = Raise e /\
  log (snd (run_deep_research world q)) =
    [NodeEntered "start" RESEARCH; NodeEntered "research" RESEARCH; SearchCall q] /\
  Forall (fun ev => is_chain_call ev = false) (log (snd (run_deep_research world q))) /\
  research_notes (obj (snd (run_deep_research world q))) = None.
Proof.
  intros Hfail. split.
  - intros s <- Hunset. rewrite (run_research_unset world s Hunset). simpl.
    rewrite Hfail. reflexivity.
  - rewrite run_deep_research_cases. simpl. rewrite Hfail. simpl.
    repeat split. repeat constructor.
Qed.

Lemma search_failure_aborts_run_witness :
  search_tool_invoke offline_world capital_query
    = Raise (ExternalError "search unavailable") /\
  fst (run_deep_research offline_world capital_query)
    = Raise (ExternalError "search unavailable") /\
  Forall (fun ev => is_chain_call ev = false)
    (log (snd (run_deep_research offline_world capital_query))).
Proof.
  split; [reflexivity|].
  destruct (search_failure_aborts_run offline_world capital_query
              (ExternalError "search unavailable") eq_refl)
    as (_ & Hraise & _ & Hchains & _).
  split; [exact Hraise | exact Hchains].
Defined.

(** ** The path of a run *)

(** C1: a run never enters the synthesis node and never calls the synthesis
    chain: after the research stage the tag is [SYNTHESIS], for which the
    router names the answer node.  A run that returns has entered start,
    research and answer, in this order, ends with the tag [COMPLETE] and
    returns the projection of its final state; the run on the stand-ins
    does. *)
Theorem run_skips_synthesis (world : Collaborators) (q : string) :
  (forall notes results st, route_next_step (researched notes results st) = "answer") /\
  Forall (fun p => fst p <> "synthesis")
    (nodes_entered (log (snd (run_deep_research world q)))) /\
  Forall (fun ev => match ev with SynthesizerCall _ _ _ _ => False | _ => True end)
    (log (snd (run_deep_research world q))) /\
  match run_deep_research world q with
  | (Ok r, s) =>
      fst <$> nodes_entered (log s) = ["start"; "research"; "answer"] /\
      current_state (obj s) = COMPLETE /\
      r = projection (obj s)
  | (Raise _, _) => True
  end /\
  fst (run_deep_research stub_world capital_query) =
    Ok {| r_query := "What is the capital of France?";
          r_final_answer := Some "answer";
          r_sources := [{| title := "Paris"; url := "https://example.com/paris";
                           published_date := "Unknown Date" |}];
          r_workflow_path := ["Research phase completed.";
                              "Answer drafting phase completed."] |} /\
  fst <$> nodes_entered (log (snd (run_deep_research stub_world capital_query)))
    = ["start"; "research"; "answer"].
Proof.
  split; [reflexivity|].
  assert (Hne : "start" <> "synthesis" /\ "research" <> "synthesis"
                /\ "answer" <> "synthesis") by (repeat split; discriminate).
  destruct Hne as (H1 & H2 & H3).
  rewrite (run_deep_research_cases world q). cbv zeta.
  split; [|split; [|split]].
  - destruct (search_tool_invoke world q); [|repeat constructor; assumption].
    destruct (researcher_chain_invoke world q _ _); [|repeat constructor; assumption].
    destruct (drafter_chain_invoke world q _ _ _); repeat constructor; assumption.
  - destruct (search_tool_invoke world q); [|repeat constructor].
    destruct (researcher_chain_invoke world q _ _); [|repeat constructor].
    destruct (drafter_chain_invoke world q _ _ _); repeat constructor.
  - destruct (search_tool_invoke world q); [|exact I].
    destruct (researcher_chain_invoke world q _ _); [|exact I].
    destruct (drafter_chain_invoke world q _ _ _); [|exact I].
    repeat split.
  - split; vm_compute; reflexivity.
Qed.

(** C3: the workflow path of a result is the contents of the assistant
    messages of the final state, in order; in a run that returns these are
    two, the notice of the research stage and the notice of the answer
    drafting stage, and the notice of the synthesis stage is not among them. *)
Theorem workflow_path_has_two_notices (world : Collaborators) (q : string) :
  match run_deep_research world q with
  | (Ok r, s) =>
      r_workflow_path r =
        content <$> filter (fun msg => role msg = "assistant") (messages (obj s)) /\
      r_workflow_path r =
        ["Research phase completed."; "Answer drafting phase completed."] /\
      length (r_workflow_path r) = 2
  | (Raise _, _) => True
  end /\
  role <$> messages (obj (snd (run_deep_research stub_world capital_query)))
    = ["system"; "system"; "assistant"; "assistant"] /\
  r_workflow_path (projection (obj (snd (run_deep_research stub_world capital_query))))
    = ["Research phase completed."; "Answer drafting phase completed."].
Proof.
  split; [|split; vm_compute; reflexivity].
  rewrite (run_deep_research_cases world q). cbv zeta.
  destruct (search_tool_invoke world q); [|exact I].
  destruct (researcher_chain_invoke world q _ _); [|exact I].
  destruct (drafter_chain_invoke world q _ _ _); [|exact I].
  repeat split.
Qed.

(** ** The tags seen by the stages *)

(** C6: a run that returns has entered the research node with the tag
    [RESEARCH] and the answer node with the tag [SYNTHESIS], and ends with the
    tag [COMPLETE]: the language-model stages have seen [RESEARCH; SYNTHESIS],
    no stage was entered with [ANSWER], and the tag went from [SYNTHESIS] to
    [COMPLETE].  Each stage assigns its tag whatever the tag was: the
    research stage entered with [COMPLETE] sets [SYNTHESIS]. *)
Theorem stages_see_research_then_synthesis (world : Collaborators) (q : string) :
  match run_deep_research world q with
  | (Ok _, s) =>
      nodes_entered (log s) =
        [("start", RESEARCH); ("research", RESEARCH); ("answer", SYNTHESIS)] /\
      tags_seen_by_stages (log s) = [RESEARCH; SYNTHESIS] /\
      current_state (obj s) = COMPLETE
  | (Raise _, s) => Forall (fun p => snd p <> ANSWER) (nodes_entered (log s))
  end /\
  tags_seen_by_stages (log (snd (run_deep_research stub_world capital_query)))
    = [RESEARCH; SYNTHESIS] /\
  current_state (obj (snd (run_deep_research stub_world capital_query))) = COMPLETE /\
  current_state
    (obj (snd (run_research stub_world
                 {| obj := set_current_state COMPLETE
                             (set_search_results (Some [paris])
                                (GraphState_init capital_query));
                    log := [] |}))) = SYNTHESIS.
Proof.
  split; [|repeat split; vm_compute; reflexivity].
  rewrite (run_deep_research_cases world q). cbv zeta.
  destruct (search_tool_invoke world q); [|repeat constructor; discriminate].
  destruct (researcher_chain_invoke world q _ _); [|repeat constructor; discriminate].
  destruct (drafter_chain_invoke world q _ _ _); [|repeat constructor; discriminate].
  repeat split.
Qed.

(** ** Failure of the drafting chain *)

(** C9: the state of a run never holds a synthesis, since the synthesis stage
    is not entered; when the run raises, the state holds no final answer and
    no notice of the answer drafting stage.  On the stand-ins whose drafting
    chain raises, the run raises that exception, and the state then holds the
    research notes, no synthesis and no final answer. *)
Theorem drafting_failure_leaves_no_synthesis (world : Collaborators) (q : string) :
  synthesized_research (obj (snd (run_deep_research world q))) = None /\
  match run_deep_research world q with
  | (Ok _, _) => True
  | (Raise _, s) =>
      final_answer (obj s) = None /\
      Forall (fun msg => content msg <> "Answer drafting phase completed.")
        (messages (obj s))
  end /\
  fst (run_deep_research no_drafter_world capital_query)
    = Raise (ExternalError "model unavailable") /\
  research_notes (obj (snd (run_deep_research no_drafter_world capital_query)))
    = Some "notes" /\
  synthesized_research (obj (snd (run_deep_research no_drafter_world capital_query)))
    = None /\
  final_answer (obj (snd (run_deep_research no_drafter_world capital_query))) = None /\
  content <$> messages (obj (snd (run_deep_research no_drafter_world capital_query)))
    = ["Starting research workflow for: What is the capital of France?";
       "Performed initial search for: What is the capital of France?";
       "Research phase completed."].
Proof.
  split; [|split; [|repeat split; vm_compute; reflexivity]];
    rewrite (run_deep_research_cases world q); cbv zeta.
  - destruct (search_tool_invoke world q); [|reflexivity].
    destruct (researcher_chain_invoke world q _ _); [|reflexivity].
    destruct (drafter_chain_invoke world q _ _ _); reflexivity.
  - destruct (search_tool_invoke world q);
      [|split; [reflexivity | repeat constructor; discriminate]].
    destruct (researcher_chain_invoke world q _ _);
      [|split; [reflexivity | repeat constructor; discriminate]].
    destruct (drafter_chain_invoke world q _ _ _); [exact I|].
    split; [reflexivity | repeat constructor; discriminate].
Qed.

(** ** The engine from any state *)


Lemma run_research_returns_tag (world : Collaborators) (s s' : Store) :
  run_research world s = (Ok tt, s') -> current_state (obj s') = SYNTHESIS.
Proof.
  destruct (truthy_cases (search_results (obj s))) as [(r & rs & Hset)|Hunset].
  - rewrite (run_research_set world s r rs Hset). simpl.
    destruct (researcher_chain_invoke world _ _ _); [|discriminate].
    intros [= <-]. reflexivity.
  - rewrite (run_research_unset world s Hunset). simpl.
    destruct (search_tool_invoke world _) as [results|]; [|discriminate].
    destruct (researcher_chain_invoke world _ _ _); [|discriminate].
    intros [= <-]. reflexivity.
Qed.

Lemma run_answer_drafting_returns_tag (world : Collaborators) (s s' : Store) :
  run_answer_drafting world s = (Ok tt, s') -> current_state (obj s') = COMPLETE.
Proof.
  rewrite run_answer_drafting_run. simpl.
  destruct (drafter_chain_invoke world _ _ _ _); [|discriminate].
  intros [= <-]. reflexivity.
Qed.


(** ** Entering the research stage again after its chain failed *)

(** X2: when the search answers with at least one record and the research
    chain then raises, the stage raises with the search results and the
    search message written, and notes, sources and tag untouched.  Entering
    the stage again on that state, with whatever collaborators, makes no
    search; if the chain then answers, the stage completes from the stored
    results and the chain is called with the arguments of the first call. *)
Theorem run_research_resumes_after_chain_failure
    (world world' : Collaborators) (s : Store) (r : SearchResult)
    (rs : list SearchResult) (e : Exn) :
  truthy (search_results (obj s)) = false ->
  search_tool_invoke world (query (obj s)) = Ok (r :: rs) ->
  researcher_chain_invoke world (query (obj s)) (Some (r :: rs))
    (messages (obj s) ++ [search_message (query (obj s))]) = Raise e ->
  let s1 := snd (run_research world s) in
  fst (run_research world s) = Raise e /\
  search_results (obj s1) = Some (r :: rs) /\
  messages (obj s1) = messages (obj s) ++ [search_message (query (obj s))] /\
  research_notes (obj s1) = research_notes (obj s) /\
  sources (obj s1) = sources (obj s) /\
  current_state (obj s1) = current_state (obj s) /\
  search_count (log (snd (run_research world' s1))) = search_count (log s1) /\
  (forall notes,
     researcher_chain_invoke world' (query (obj s)) (Some (r :: rs))
       (messages (obj s) ++ [search_message (query (obj s))]) = Ok notes ->
     run_research world' s1 =
       (Ok tt,
        {| obj := researched notes (r :: rs) (obj s1);
           log := log s1 ++ [ResearcherCall (query (obj s)) (Some (r :: rs))
                               (messages (obj s) ++ [search_message (query (obj s))])] |})).
Proof.
  intros Hunset Hsearch Hchain s1. subst s1.
  rewrite (run_research_unset world s Hunset). cbv zeta. rewrite Hsearch.
  change (messages (searched (r :: rs) (obj s)))
    with (messages (obj s) ++ [search_message (query (obj s))]).
  rewrite Hchain. cbn [fst snd obj log].
  split; [reflexivity|]. split; [reflexivity|]. split; [reflexivity|].
  split; [reflexivity|]. split; [reflexivity|]. split; [reflexivity|].
  split.
  - apply run_research_no_search. reflexivity.
  - intros notes Hnotes.
    rewrite (run_research_set world'
               {| obj := searched (r :: rs) (obj s);
                  log := (log s ++ [SearchCall (query (obj s))]) ++
                         [ResearcherCall (query (obj s)) (Some (r :: rs))
                            (messages (obj s) ++ [search_message (query (obj s))])] |}
               r rs eq_refl).
    cbv zeta. cbn [obj log].
    change (messages (searched (r :: rs) (obj s)))
      with (messages (obj s) ++ [search_message (query (obj s))]).
    change (query (searched (r :: rs) (obj s))) with (query (obj s)).
    rewrite Hnotes. reflexivity.
Qed.

Lemma run_research_resumes_after_chain_failure_witness :
  let s := {| obj := started (GraphState_init capital_query); log := [] |} in
  let s1 := snd (run_research no_researcher_world s) in
  fst (run_research no_researcher_world s) = Raise (ExternalError "model unavailable") /\
  search_results (obj s1) = Some [paris] /\
  search_count (log (snd (run_research stub_world s1))) = 1 /\
  fst (run_research stub_world s1) = Ok tt.
Proof.
  intros s s1.
  destruct (run_research_resumes_after_chain_failure no_researcher_world stub_world s
              paris [] (ExternalError "model unavailable") eq_refl eq_refl eq_refl)
    as (Hraise & Hkept & _ & _ & _ & _ & Hcount & Hresume).
  split; [exact Hraise|]. split; [exact Hkept|].
  split; [fold s1 in Hcount; rewrite Hcount; vm_compute; reflexivity|].
  fold s1 in Hresume. rewrite (Hresume "notes" eq_refl). reflexivity.
Defined.

(** ** The stage functions called in order *)



(** ** The router after each stage *)

(** X4: on the state that a stage leaves when it returns, the router names
    the answer node after the research stage, the end of the graph after the
    answer drafting stage, and after the synthesis stage the name
    ["complete"], which is neither a node of the graph nor its end. *)
Theorem router_after_each_stage (world : Collaborators) (s s' : Store) :
  (run_research world s = (Ok tt, s') -> route_next_step (obj s') = "answer") /\
  (run_synthesis world s = (Ok tt, s') ->
     route_next_step (obj s') = "complete" /\
     assoc (route_next_step (obj s')) (nodes (workflow world)) = None /\
     route_next_step (obj s') <> END) /\
  (run_answer_drafting world s = (Ok tt, s') -> route_next_step (obj s') = END).
Proof.
  split; [|split].
  - intros Hrun. unfold route_next_step.
    rewrite (run_research_returns_tag world s s' Hrun). reflexivity.
  - rewrite run_synthesis_run. cbv zeta.
    destruct (synthesizer_chain_invoke world _ _ _ _); [|discriminate].
    intros [= <-]. repeat split. discriminate.
  - intros Hrun. unfold route_next_step.
    rewrite (run_answer_drafting_returns_tag world s s' Hrun). reflexivity.
Qed.

Lemma router_after_each_stage_witness :
  let s := {| obj := started (GraphState_init capital_query); log := [] |} in
  route_next_step (obj (snd (run_research stub_world s))) = "answer" /\
  route_next_step (obj (snd (run_synthesis stub_world s))) = "complete" /\
  route_next_step (obj (snd (run_answer_drafting stub_world s))) = END.
Proof.
  intros s.
  split; [|split].
  - apply (proj1 (router_after_each_stage stub_world s _)). vm_compute. reflexivity.
  - apply (proj1 (proj2 (router_after_each_stage stub_world s _))).
    vm_compute. reflexivity.
  - apply (proj2 (proj2 (router_after_each_stage stub_world s _))).
    vm_compute. reflexivity.
Defined.

(** ** The path of the engine from any state *)


(** ** The result of a run, end to end *)



(** ** The keys that a source record is made of *)

(** X8: a source record depends on the three keys [title], [url] and
    [published_date] of the search record only: another key, present or not,
    changes nothing; a record with the three keys gives their values and the
    empty record gives the three placeholders. *)
Theorem source_of_reads_three_keys (result : SearchResult) (k v : string) :
  k <> "title" -> k <> "url" -> k <> "published_date" ->
  source_of (<[k := v]> result) = source_of result /\
  source_of (delete k result) = source_of result /\
  (forall t u d,
     source_of (<["title" := t]> (<["url" := u]> (<["published_date" := d]> result)))
     = {| title := t; url := u; published_date := d |}) /\
  source_of ∅ = {| title := "Unknown Title"; url := "Unknown URL";
                   published_date := "Unknown Date" |}.
Proof.
  intros Ht Hu Hd. unfold source_of.
  split; [|split; [|split]].
  - rewrite !lookup_insert_ne by assumption. reflexivity.
  - rewrite !lookup_delete_ne by assumption. reflexivity.
  - intros t u d. f_equal; simplify_map_eq; reflexivity.
  - reflexivity.
Qed.

Lemma source_of_reads_three_keys_witness :
  source_of (<["content" := "Paris is the capital of France."]> paris) = source_of paris.
Proof.
  apply (source_of_reads_three_keys paris "content" "Paris is the capital of France.");
    discriminate.
Defined.

(** ** The HTTP endpoint *)

Lemma dict_with_key_truthy (d : gmap string Json) (k : string) (v : Json) :
  d !! k = Some v -> json_truthy (JDict d) = true.
Proof.
  intros Hk. simpl. destruct (size d) eqn:Hsize; [|reflexivity].
  apply map_size_empty_iff in Hsize. subst d. rewrite lookup_empty in Hk.
  discriminate.
Qed.

Lemma run_deep_research_query (world : Collaborators) (q : string) (r : Summary)
    (s : Store) :
  run_deep_research world q = (Ok r, s) -> r_query r = q.
Proof.
  rewrite run_deep_research_cases. cbv zeta.
  destruct (search_tool_invoke world q); [|discriminate].
  destruct (researcher_chain_invoke world q _ _); [|discriminate].
  destruct (drafter_chain_invoke world q _ _ _); [|discriminate].
  intros [= <- _]. reflexivity.
Qed.

(** X9: on a request whose body is an object holding a non-empty string
    under [query], the handler runs the pipeline on that string and always
    answers: 200 with the query and the answer, sources and workflow path of
    the result when the pipeline returns, 500 with the exception when it
    raises; no exception escapes. *)
Theorem endpoint_answers_valid_request
    (world : Collaborators) (run_untyped : Json -> Result CleanResults * list Event)
    (request : Request) (d : gmap string Json) (q : string) :
  get_json request = Ok (JDict d) ->
  d !! "query" = Some (JStr q) ->
  q <> "" ->
  deep_research_endpoint world run_untyped request =
    match run_deep_research world q with
    | (Ok r, s) =>
        (inl {| body := Results {| c_query := JStr q;
                                   c_final_answer := r_final_answer r;
                                   c_sources := r_sources r;
                                   c_workflow_path := r_workflow_path r |};
                status := 200 |}, log s)
    | (Raise e, s) =>
        (inl {| body := ResearchError (Core e); status := 500 |}, log s)
    end.
Proof.
  intros Hjson Hquery Hq.
  unfold deep_research_endpoint, query_is_missing. rewrite Hjson.
  rewrite (dict_with_key_truthy d "query" _ Hquery).
  cbn [negb contains_query getitem_query]. rewrite Hquery.
  cbn [json_truthy]. apply String.eqb_neq in Hq. rewrite Hq.
  cbn [negb research].
  destruct (run_deep_research world q) as [[r|e] s] eqn:Hrun; [|reflexivity].
  rewrite (run_deep_research_query world q r s Hrun). reflexivity.
Qed.

Lemma endpoint_answers_valid_request_witness :
  fst (deep_research_endpoint stub_world refuse_untyped (query_request capital_query)) =
    inl {| body := Results {| c_query := JStr capital_query;
                              c_final_answer := Some "answer";
                              c_sources := source_of <$> [paris];
                              c_workflow_path := ["Research phase completed.";
                                                  "Answer drafting phase completed."] |};
           status := 200 |}.
Proof.
  rewrite (endpoint_answers_valid_request stub_world refuse_untyped
             (query_request capital_query) (<["query" := JStr capital_query]> ∅)
             capital_query eq_refl);
    [vm_compute; reflexivity | vm_compute; reflexivity | discriminate].
Defined.

(** X10: the handler answers 400 and runs nothing when the body is not JSON
    (and its bytes decode), when the parsed body is false in Python's sense
    ([null], [false], zero, an empty string, list or object), when it is an
    object without the key [query], and when the value under [query] is
    false in that sense; the body of the answer carries what was received. *)
Theorem endpoint_rejects_without_running
    (world : Collaborators) (run_untyped : Json -> Result CleanResults * list Event)
    (request : Request) :
  (forall e raw, get_json request = Raise e -> data_decode request = Ok raw ->
     deep_research_endpoint world run_untyped request =
       (inl {| body := InvalidJSON e raw; status := 400 |}, [])) /\
  (forall data, get_json request = Ok data -> json_truthy data = false ->
     deep_research_endpoint world run_untyped request =
       (inl {| body := QueryRequired data; status := 400 |}, [])) /\
  (forall d, get_json request = Ok (JDict d) -> d !! "query" = None ->
     deep_research_endpoint world run_untyped request =
       (inl {| body := QueryRequired (JDict d); status := 400 |}, [])) /\
  (forall d v, get_json request = Ok (JDict d) -> d !! "query" = Some v ->
     json_truthy v = false ->
     deep_research_endpoint world run_untyped request =
       (inl {| body := QueryRequired (JDict d); status := 400 |}, [])).
Proof.
  unfold deep_research_endpoint, query_is_missing.
  split; [|split; [|split]].
  - intros e raw -> ->. reflexivity.
  - intros data -> ->. reflexivity.
  - intros d -> Hnone. cbn [contains_query]. rewrite Hnone.
    destruct (negb (json_truthy (JDict d))); reflexivity.
  - intros d v -> Hsome Hfalse. cbn [contains_query getitem_query]. rewrite Hsome, Hfalse.
    destruct (negb (json_truthy (JDict d))); reflexivity.
Qed.

Lemma endpoint_rejects_without_running_witness :
  deep_research_endpoint stub_world refuse_untyped
    {| get_json := Ok (JDict (<["query" := JStr ""]> ∅)); data_decode := Ok "" |} =
    (inl {| body := QueryRequired (JDict (<["query" := JStr ""]> ∅)); status := 400 |},
     []) /\
  deep_research_endpoint stub_world refuse_untyped
    {| get_json := Ok (JDict (<["question" := JStr "q"]> ∅)); data_decode := Ok "" |} =
    (inl {| body := QueryRequired (JDict (<["question" := JStr "q"]> ∅)); status := 400 |},
     []) /\
  deep_research_endpoint stub_world refuse_untyped
    {| get_json := Ok (JFloat (2 ^ 63)); data_decode := Ok "" |} =
    (inl {| body := QueryRequired (JFloat (2 ^ 63)); status := 400 |}, []) /\
  deep_research_endpoint stub_world refuse_untyped
    {| get_json := Raise (ExternalError "400 Bad Request"); data_decode := Ok "{" |} =
    (inl {| body := InvalidJSON (ExternalError "400 Bad Request") "{"; status := 400 |},
     []).
Proof.
  split; [|split; [|split]].
  - apply (proj2 (proj2 (proj2 (endpoint_rejects_without_running stub_world
             refuse_untyped _))) _ (JStr "")); vm_compute; reflexivity.
  - apply (proj1 (proj2 (proj2 (endpoint_rejects_without_running stub_world
             refuse_untyped _)))); vm_compute; reflexivity.
  - apply (proj1 (proj2 (endpoint_rejects_without_running stub_world
             refuse_untyped _))); vm_compute; reflexivity.
  - apply (proj1 (endpoint_rejects_without_running stub_world refuse_untyped _));
      reflexivity.
Defined.

(** X11: an exception escapes the handler in two cases only: the body is not
    JSON and its bytes do not decode, the exception being that of the
    decoding; or the parsed body is true in Python's sense and is not an
    object, the exception being a [TypeError].  In both cases nothing was
    run. *)
Theorem endpoint_escapes_only_on_non_objects
    (world : Collaborators) (run_untyped : Json -> Result CleanResults * list Event)
    (request : Request) (err : PyError) (events : list Event) :
  deep_research_endpoint world run_untyped request = (inr err, events) ->
  events = [] /\
  ((exists e e', get_json request = Raise e /\ data_decode request = Raise e' /\
                 err = Core e') \/
   (exists data text, get_json request = Ok data /\ json_truthy data = true /\
                      (forall d, data <> JDict d) /\ err = Core (TypeError text))).
Proof.
  unfold deep_research_endpoint.
  destruct (get_json request) as [data|e] eqn:Hjson.
  - unfold query_is_missing.
    destruct (json_truthy data) eqn:Htruthy; cbn [negb]; [|discriminate].
    destruct data as [|b|z|bits|s|l|d]; cbn [contains_query getitem_query];
      try discriminate.
    + intros [= <- <-]. split; [reflexivity|]. right. eauto 10.
    + intros [= <- <-]. split; [reflexivity|]. right. eauto 10.
    + intros [= <- <-]. split; [reflexivity|]. right. eauto 10.
    + destruct (String.index 0 "query" s); [|discriminate].
      intros [= <- <-]. split; [reflexivity|]. right. eauto 10.
    + destruct (existsb _ l); [|discriminate].
      intros [= <- <-]. split; [reflexivity|]. right. eauto 10.
    + destruct (d !! "query") as [v|]; [|discriminate].
      destruct (negb (json_truthy v)); [discriminate|].
      destruct (research world run_untyped v) as [[c|e] evs]; discriminate.
  - destruct (data_decode request) as [raw|e'] eqn:Hraw; [discriminate|].
    intros [= <- <-]. split; [reflexivity|]. left. eauto.
Qed.

Lemma endpoint_escapes_only_on_non_objects_witness :
  deep_research_endpoint stub_world refuse_untyped
    {| get_json := Ok (JInt 5); data_decode := Ok "5" |} =
    (inr (Core (TypeError "argument of type 'int' is not iterable")), []) /\
  json_truthy (JInt 5) = true.
Proof.
  assert (Hrun : deep_research_endpoint stub_world refuse_untyped
                   {| get_json := Ok (JInt 5); data_decode := Ok "5" |} =
                 (inr (Core (TypeError "argument of type 'int' is not iterable")), []))
    by reflexivity.
  split; [exact Hrun|].
  destruct (endpoint_escapes_only_on_non_objects stub_world refuse_untyped _ _ _ Hrun)
    as [_ [(e & e' & Hjson & _)|(data & text & Hjson & Htruthy & _)]].
  - discriminate Hjson.
  - injection Hjson as <-. exact Htruthy.
Defined.

Lemma existsb_query (l : list Json) :
  existsb (fun v => match v with
                    | JStr s => String.eqb s "query"
                    | _ => false
                    end) l = true <-> JStr "query" ∈ l.
Proof.
  rewrite existsb_exists. split.
  - intros (v & Hin & Hv). apply list_elem_of_In in Hin.
    destruct v; try discriminate. apply String.eqb_eq in Hv. subst. exact Hin.
  - intros Hin. exists (JStr "query"). split; [apply list_elem_of_In, Hin | reflexivity].
Qed.

(** X12: bodies that are JSON but not objects.  A string body and a list body
    get the answer 400 when ["query"] does not occur in them (as a substring,
    as an element); when it does, subscripting the body by ["query"] raises
    a [TypeError] that escapes.  A number other than zero and [true] are not
    iterable: the membership test raises a [TypeError] that escapes. *)
Theorem endpoint_on_non_object_bodies
    (world : Collaborators) (run_untyped : Json -> Result CleanResults * list Event)
    (request : Request) (data : Json) :
  get_json request = Ok data ->
  (forall s, data = JStr s -> String.index 0 "query" s = None ->
     deep_research_endpoint world run_untyped request =
       (inl {| body := QueryRequired data; status := 400 |}, [])) /\
  (forall s n, data = JStr s -> String.index 0 "query" s = Some n ->
     deep_research_endpoint world run_untyped request =
       (inr (Core (TypeError "string indices must be integers, not 'str'")), [])) /\
  (forall l, data = JList l -> JStr "query" ∉ l ->
     deep_research_endpoint world run_untyped request =
       (inl {| body := QueryRequired data; status := 400 |}, [])) /\
  (forall l, data = JList l -> JStr "query" ∈ l ->
     deep_research_endpoint world run_untyped request =
       (inr (Core (TypeError "list indices must be integers or slices, not str")), [])) /\
  (forall z, data = JInt z -> z <> 0%Z ->
     deep_research_endpoint world run_untyped request =
       (inr (Core (TypeError "argument of type 'int' is not iterable")), [])) /\
  (data = JBool true ->
     deep_research_endpoint world run_untyped request =
       (inr (Core (TypeError "argument of type 'bool' is not iterable")), [])).
Proof.
  intros Hjson. unfold deep_research_endpoint, query_is_missing. rewrite Hjson.
  split; [|split; [|split; [|split; [|split]]]].
  - intros s -> Hindex. cbn [json_truthy contains_query]. rewrite Hindex.
    destruct (negb (negb (String.eqb s ""))); reflexivity.
  - intros s n -> Hindex. cbn [json_truthy contains_query getitem_query].
    rewrite Hindex.
    destruct s as [|c s]; [discriminate Hindex | reflexivity].
  - intros l -> Hnotin. cbn [json_truthy contains_query].
    destruct (existsb _ l) eqn:Hex.
    + apply existsb_query in Hex. contradiction.
    + destruct l; reflexivity.
  - intros l -> Hin. cbn [json_truthy contains_query getitem_query].
    apply existsb_query in Hin as Hex. rewrite Hex.
    destruct l; [inversion Hin | reflexivity].
  - intros z -> Hz. cbn [json_truthy contains_query].
    apply Z.eqb_neq in Hz. rewrite Hz. reflexivity.
  - intros ->. reflexivity.
Qed.

Lemma endpoint_on_non_object_bodies_witness :
  deep_research_endpoint stub_world refuse_untyped
    {| get_json := Ok (JStr "my query"); data_decode := Ok "" |} =
    (inr (Core (TypeError "string indices must be integers, not 'str'")), []) /\
  deep_research_endpoint stub_world refuse_untyped
    {| get_json := Ok (JList [JStr "query"]); data_decode := Ok "" |} =
    (inr (Core (TypeError "list indices must be integers or slices, not str")), []) /\
  deep_research_endpoint stub_world refuse_untyped
    {| get_json := Ok (JStr "hello"); data_decode := Ok "" |} =
    (inl {| body := QueryRequired (JStr "hello"); status := 400 |}, []).
Proof.
  split; [|split].
  - apply (proj1 (proj2 (endpoint_on_non_object_bodies stub_world refuse_untyped
             {| get_json := Ok (JStr "my query"); data_decode := Ok "" |} _ eq_refl))
             "my query" 3); reflexivity.
  - apply (proj1 (proj2 (proj2 (proj2 (endpoint_on_non_object_bodies stub_world
             refuse_untyped
             {| get_json := Ok (JList [JStr "query"]); data_decode := Ok "" |}
             _ eq_refl)))) [JStr "query"]); [reflexivity | apply list_elem_of_here].
  - apply (proj1 (endpoint_on_non_object_bodies stub_world refuse_untyped
             {| get_json := Ok (JStr "hello"); data_decode := Ok "" |} _ eq_refl)
             "hello"); reflexivity.
Defined.
